(** * NarratoAI tutorial script: the prerequisite check of [tutorial_poc.py]

    A shallow embedding of [check_prerequisites], [print_section] and [main]
    of [src/tutorial_poc.py].  The script prints to standard output and
    spawns external commands through [subprocess.run]; both effects are kept
    as a chronological trace of events.  Exceptions are results: the
    [except] clause of the source is selective, so an exception of any other
    class propagates out of the function. *)

From Stdlib Require Import String Ascii List ZArith Bool Lia Permutation.
Import ListNotations.

Local Open Scope string_scope.
Local Open Scope list_scope.

(** ** Python strings *)

Module PyStr.

(** [c * n] for a one-character string [c]. *)
Fixpoint repeat_char (c : ascii) (n : nat) : string :=
  match n with
  | O => EmptyString
  | S n' => String c (repeat_char c n')
  end.

(** [s.split(sep)] for a one-character separator: one piece more than there
    are separators, empty pieces kept.  Python splits code points and this
    splits UTF-8 bytes; the byte of a line feed occurs in no multi-byte
    sequence, so both cut at the same places. *)
Fixpoint split (sep : ascii) (s : string) : list string :=
  match s with
  | EmptyString => [EmptyString]
  | String c s' =>
      if Ascii.eqb c sep then EmptyString :: split sep s'
      else match split sep s' with
           | [] => [String c EmptyString]
           | piece :: rest => String c piece :: rest
           end
  end.

(** [s.center(width, fill)] as CPython pads: the odd column goes to the left
    only when both the margin and the width are odd.  Lengths are counted in
    bytes, which is the number of characters for the ASCII banners of [main]. *)
Definition center (s : string) (width : nat) (fill : ascii) : string :=
  let len := String.length s in
  if Nat.leb width len then s
  else
    let marg := width - len in
    let left := Nat.div marg 2 + Nat.land (Nat.land marg width) 1 in
    repeat_char fill left ++ s ++ repeat_char fill (marg - left).

Definition nl : ascii := ascii_of_nat 10.
Definition nl_str : string := String nl EmptyString.

End PyStr.

(** ** Exceptions, events and the effect monad *)

(** The exception classes the script can meet.  [OtherException] stands for
    every class the source does not name (a [PermissionError], say). *)
Inductive exn : Type :=
| TimeoutExpired
| FileNotFoundError
| IndexError
| OtherException (cls : string).

(** The [CompletedProcess] that [subprocess.run] returns with
    [capture_output=True, text=True]. *)
Record CompletedProcess : Type := mkCompleted {
  returncode : Z;
  stdout : string;
  stderr : string
}.

Inductive run_result : Type :=
| Completed (p : CompletedProcess)
| Raised (e : exn).

(** What the script does to the outside, in order: a [print] call with its
    argument, or a [subprocess.run] call with its command and timeout. *)
Inductive event : Type :=
| Print (line : string)
| Run (cmd : list string) (timeout : Z).

Inductive result (A : Type) : Type :=
| Ok (a : A)
| Raise (e : exn).
Arguments Ok {A} a.
Arguments Raise {A} e.

(** ** The report: a Python dict, insertion ordered *)

Module Dict.

Definition t : Type := list (string * bool).

Definition empty : t := [].

Fixpoint get (d : t) (k : string) : option bool :=
  match d with
  | [] => None
  | (k', v) :: d' => if String.eqb k' k then Some v else get d' k
  end.

(** [d[k] = v]: an existing key keeps its place, a new key goes last. *)
Fixpoint set (d : t) (k : string) (v : bool) : t :=
  match d with
  | [] => [(k, v)]
  | (k', v') :: d' =>
      if String.eqb k' k then (k', v) :: d' else (k', v') :: set d' k v
  end.

Definition keys (d : t) : list string := map fst d.
Definition values (d : t) : list bool := map snd d.

End Dict.

(** The builtin [all] over booleans. *)
Definition py_all (l : list bool) : bool := forallb (fun b => b) l.

(** [l[i]], which raises [IndexError] out of range. *)
Definition py_index {A : Type} (l : list A) (i : nat) : result A :=
  match nth_error l i with
  | Some a => Ok a
  | None => Raise IndexError
  end.

(** ** The script *)

Section Script.

(** The host: its state and what [subprocess.run(cmd, capture_output=True,
    text=True, timeout=t)] does on it. *)
Variable OS : Type.
Variable subprocess_run : list string -> Z -> OS -> run_result * OS.

(** A computation of the script: from the host's state to a value or a
    raised exception, the events emitted on the way and the host's new
    state. *)
Definition M (A : Type) : Type := OS -> result A * list event * OS.

Definition ret {A : Type} (a : A) : M A := fun os => (Ok a, [], os).

Definition bind {A B : Type} (m : M A) (f : A -> M B) : M B :=
  fun os =>
    let '(r, t1, os1) := m os in
    match r with
    | Ok a => let '(r2, t2, os2) := f a os1 in (r2, t1 ++ t2, os2)
    | Raise e => (Raise e, t1, os1)
    end.

Definition lift {A : Type} (r : result A) : M A := fun os => (r, [], os).

(** [try: body except classes: handler]. *)
Definition try_except {A : Type} (body : M A) (catches : exn -> bool)
    (handler : M A) : M A :=
  fun os =>
    let '(r, t1, os1) := body os in
    match r with
    | Ok a => (Ok a, t1, os1)
    | Raise e =>
        if catches e
        then let '(r2, t2, os2) := handler os1 in (r2, t1 ++ t2, os2)
        else (Raise e, t1, os1)
    end.

Definition print (s : string) : M unit := fun os => (Ok tt, [Print s], os).

Definition run (cmd : list string) (timeout : Z) : M CompletedProcess :=
  fun os =>
    let '(r, os') := subprocess_run cmd timeout os in
    (match r with Completed p => Ok p | Raised e => Raise e end,
     [Run cmd timeout], os').

Notation "x <- m ;; k" := (bind m (fun x => k))
  (at level 100, m at next level, right associativity).
Notation "m ;;; k" := (bind m (fun _ => k))
  (at level 100, right associativity).

Definition print_section (title : string) : M unit :=
  print (PyStr.nl_str ++ PyStr.repeat_char "="%char 70) ;;;
  print ("  " ++ title) ;;;
  print (PyStr.repeat_char "="%char 70 ++ PyStr.nl_str).

(** The list [tools] of [check_prerequisites]. *)
Definition tools : list (string * list string) :=
  [ ("Docker", ["docker"; "--version"]);
    ("FFmpeg", ["ffmpeg"; "-version"]) ].

(** [except (subprocess.TimeoutExpired, FileNotFoundError)]. *)
Definition caught (e : exn) : bool :=
  match e with
  | TimeoutExpired | FileNotFoundError => true
  | IndexError | OtherException _ => false
  end.

(** The body of the [for] loop of [check_prerequisites]: one probe.  The
    dict is written last on every path, so the handler starts from the dict
    the body was given. *)
Definition probe (results : Dict.t) (name : string) (cmd : list string)
    : M Dict.t :=
  try_except
    (result <- run cmd 5 ;;
     if (returncode result =? 0)%Z then
       print ("✓ " ++ name ++ " is installed") ;;;
       version <- lift (py_index (PyStr.split PyStr.nl (stdout result)) 0) ;;
       print ("  " ++ version) ;;;
       ret (Dict.set results name true)
     else
       print ("✗ " ++ name ++ " not found or not working") ;;;
       ret (Dict.set results name false))
    caught
    (print ("✗ " ++ name ++ " not installed") ;;;
     ret (Dict.set results name false)).

(** [for name, cmd in tools: ...]. *)
Fixpoint for_tools (l : list (string * list string)) (results : Dict.t)
    : M Dict.t :=
  match l with
  | [] => ret results
  | (name, cmd) :: l' =>
      results' <- probe results name cmd ;;
      for_tools l' results'
  end.

Definition check_prerequisites : M bool :=
  print_section "Checking Prerequisites" ;;;
  results <- for_tools tools Dict.empty ;;
  ret (py_all (Dict.values results)).

(** The documentation texts of the [demo_*] functions: constants of the
    script that are only printed. *)
Record static_text : Type := mkStaticText {
  workflow : string;
  docker_commands : string;
  config_info : string;
  api_code : string;
  features : string;
  storage : string;
  quick_start : string
}.

Variable texts : static_text.

Definition demo_workflow : M unit :=
  print_section "Complete Video Processing Workflow" ;;;
  print (workflow texts).

Definition demo_docker_usage : M unit :=
  print_section "Docker Usage Examples" ;;;
  print (docker_commands texts).

Definition demo_config : M unit :=
  print_section "Configuration Options" ;;;
  print (config_info texts).

Definition demo_python_api : M unit :=
  print_section "Python API Examples" ;;;
  print (api_code texts).

Definition demo_supported_features : M unit :=
  print_section "Supported Features" ;;;
  print (features texts).

Definition demo_storage : M unit :=
  print_section "Storage and Requirements" ;;;
  print (storage texts).

Definition demo_quick_start : M unit :=
  print_section "Quick Start Guide" ;;;
  print (quick_start texts).

Definition summary : string :=
"
1. SETUP
   - Install Docker and FFmpeg
   - Clone the repository
   - Configure API keys in config.toml

2. DEPLOY
   - Build: docker build -t narratoai:latest .
   - Run: docker-compose up -d

3. USE
   - Access http://localhost:11170
   - Upload video and configure settings
   - Generate processed video

For more information, visit: https://github.com/linyqh/NarratoAI
".

Definition main : M Z :=
  print (PyStr.nl_str ++ PyStr.center "/NarratoAI Tutorial POC" 70 "="%char) ;;;
  print (PyStr.center "  Automated Video Subtitle & Narration Tool" 70 " "%char) ;;;
  print (PyStr.repeat_char "="%char 70) ;;;
  prereq_ok <- check_prerequisites ;;
  demo_workflow ;;;
  demo_docker_usage ;;;
  demo_config ;;;
  demo_python_api ;;;
  demo_supported_features ;;;
  demo_storage ;;;
  demo_quick_start ;;;
  print_section "Quick Start Summary" ;;;
  print summary ;;;
  (if negb prereq_ok then
     print (PyStr.nl_str ++ PyStr.repeat_char "!"%char 70) ;;;
     print "  WARNING: Some prerequisites are missing. Please install them first." ;;;
     print (PyStr.repeat_char "!"%char 70 ++ PyStr.nl_str)
   else ret tt) ;;;
  ret 0%Z.

(** [sys.exit(main())] under [if __name__ == "__main__"]: the status of the
    process is the integer [main] returns; an exception that reaches the top
    level ends the interpreter with status 1. *)
Definition exit_status (os : OS) : Z :=
  match main os with
  | (Ok code, _, _) => code
  | (Raise _, _, _) => 1%Z
  end.

(** The text the run has printed, in order. *)
Fixpoint printed (t : list event) : list string :=
  match t with
  | [] => []
  | Print s :: t' => s :: printed t'
  | Run _ _ :: t' => printed t'
  end.

(** The commands the run has spawned, in order. *)
Fixpoint spawned (t : list event) : list (list string) :=
  match t with
  | [] => []
  | Print _ :: t' => spawned t'
  | Run cmd _ :: t' => cmd :: spawned t'
  end.

End Script.

Arguments ret {OS A} a.
Arguments bind {OS A B} m f.
Arguments print {OS} s.
Arguments print_section {OS} title.
Arguments run {OS} subprocess_run cmd timeout.
Arguments try_except {OS A} body catches handler.
Arguments lift {OS A} r.
Arguments probe {OS} subprocess_run results name cmd.
Arguments for_tools {OS} subprocess_run l results.
Arguments check_prerequisites {OS} subprocess_run.
Arguments main {OS} subprocess_run texts.
Arguments exit_status {OS} subprocess_run texts os.

(** ** Vocabulary of the properties *)

(** The failure causes the design names. *)
Inductive cause : Type := NotInstalled | TimedOut | NonZeroExit.

(** How one [subprocess.run] call ended, in the design's terms: [None] on
    success, [Some c] for a failure of cause [c].  A call that raised an
    exception of another class is none of these. *)
Inductive classified : run_result -> option cause -> Prop :=
| cl_success p : returncode p = 0%Z -> classified (Completed p) None
| cl_nonzero p : returncode p <> 0%Z -> classified (Completed p) (Some NonZeroExit)
| cl_timeout : classified (Raised TimeoutExpired) (Some TimedOut)
| cl_missing : classified (Raised FileNotFoundError) (Some NotInstalled).

(** The call started, completed within the timeout and exited with zero. *)
Definition exits_zero (r : run_result) : Prop :=
  exists p, r = Completed p /\ returncode p = 0%Z.

(** A host on which every [subprocess.run] call ends in one of the four
    ways of the design. *)
Definition host_classified {OS : Type}
    (subprocess_run : list string -> Z -> OS -> run_result * OS) : Prop :=
  forall cmd t os, exists c, classified (fst (subprocess_run cmd t os)) c.

(** The first line of a captured output. *)
Definition first_line (s : string) : string :=
  match PyStr.split PyStr.nl s with
  | [] => EmptyString
  | l :: _ => l
  end.

(** The message printed for a failed probe of the tool [name]. *)
Definition failure_message (name : string) (c : cause) : string :=
  match c with
  | NonZeroExit => "✗ " ++ name ++ " not found or not working"
  | NotInstalled | TimedOut => "✗ " ++ name ++ " not installed"
  end.

(** The events of the trailing warning. *)
Definition warning_block : list event :=
  [ Print (PyStr.nl_str ++ PyStr.repeat_char "!"%char 70);
    Print "  WARNING: Some prerequisites are missing. Please install them first.";
    Print (PyStr.repeat_char "!"%char 70 ++ PyStr.nl_str) ].

Definition ends_with {A : Type} (suffix l : list A) : Prop :=
  exists pre, l = pre ++ suffix.

(** The events of [print_section title]. *)
Definition section_events (title : string) : list event :=
  [ Print (PyStr.nl_str ++ PyStr.repeat_char "="%char 70);
    Print ("  " ++ title);
    Print (PyStr.repeat_char "="%char 70 ++ PyStr.nl_str) ].

(** The events of the title banner of [main]. *)
Definition banner_events : list event :=
  [ Print (PyStr.nl_str ++ PyStr.center "/NarratoAI Tutorial POC" 70 "="%char);
    Print (PyStr.center "  Automated Video Subtitle & Narration Tool" 70 " "%char);
    Print (PyStr.repeat_char "="%char 70) ].

(** The events of the seven [demo_*] calls of [main]. *)
Definition demo_events (texts : static_text) : list event :=
  section_events "Complete Video Processing Workflow" ++ [Print (workflow texts)] ++
  section_events "Docker Usage Examples" ++ [Print (docker_commands texts)] ++
  section_events "Configuration Options" ++ [Print (config_info texts)] ++
  section_events "Python API Examples" ++ [Print (api_code texts)] ++
  section_events "Supported Features" ++ [Print (features texts)] ++
  section_events "Storage and Requirements" ++ [Print (storage texts)] ++
  section_events "Quick Start Guide" ++ [Print (quick_start texts)].

(** ** Concrete hosts *)

Module Host.

(** A scripted host: its state is the list of the answers still to give,
    one per [subprocess.run] call; with no answer left the executable is
    not found. *)
Definition scripted (cmd : list string) (timeout : Z) (os : list run_result)
    : run_result * list run_result :=
  match os with
  | [] => (Raised FileNotFoundError, [])
  | r :: os' => (r, os')
  end.

(** The ways a version command can end within the design. *)
Inductive answer : Type :=
| Exit (code : Z) (out : string)
| Hang
| Missing.

Definition answer_result (a : answer) : run_result :=
  match a with
  | Exit code out => Completed (mkCompleted code out EmptyString)
  | Hang => Raised TimeoutExpired
  | Missing => Raised FileNotFoundError
  end.

(** A scripted host that only gives such answers. *)
Definition answering (cmd : list string) (timeout : Z) (os : list answer)
    : run_result * list answer :=
  match os with
  | [] => (Raised FileNotFoundError, [])
  | a :: os' => (answer_result a, os')
  end.

Definition no_text : static_text :=
  mkStaticText EmptyString EmptyString EmptyString EmptyString
               EmptyString EmptyString EmptyString.

(** Docker answers, FFmpeg exits with 1. *)
Definition docker_only : list answer :=
  [ Exit 0 "Docker version 24.0.5"; Exit 1 EmptyString ].

Definition both_present : list answer :=
  [ Exit 0 "Docker version 24.0.5"; Exit 0 "ffmpeg version 6.0" ].

End Host.

(** The three components of a finished computation. *)
Definition value {A OS : Type} (x : result A * list event * OS) : result A :=
  fst (fst x).
Definition trace {A OS : Type} (x : result A * list event * OS) : list event :=
  snd (fst x).
Definition host {A OS : Type} (x : result A * list event * OS) : OS := snd x.

(** The three failure causes can be told apart in what a failed probe of
    [name] prints. *)
Definition causes_distinguishable {OS : Type}
    (subprocess_run : list string -> Z -> OS -> run_result * OS)
    (name : string) (cmd : list string) : Prop :=
  forall os1 os2 c1 c2,
    classified (fst (subprocess_run cmd 5%Z os1)) (Some c1) ->
    classified (fst (subprocess_run cmd 5%Z os2)) (Some c2) ->
    c1 <> c2 ->
    printed (trace (probe subprocess_run Dict.empty name cmd os1)) <>
    printed (trace (probe subprocess_run Dict.empty name cmd os2)).

(** * Properties *)

(** ** Strings and the dict *)

Lemma split_not_nil (sep : ascii) (s : string) : PyStr.split sep s <> [].
Proof.
  induction s as [|c s IH]; simpl.
  - discriminate.
  - destruct (Ascii.eqb c sep); [discriminate|].
    destruct (PyStr.split sep s); discriminate.
Qed.

Lemma split_index_0 (s : string) :
  py_index (PyStr.split PyStr.nl s) 0 = Ok (first_line s).
Proof.
  unfold py_index, first_line.
  destruct (PyStr.split PyStr.nl s) eqn:E; [|reflexivity].
  exfalso; exact (split_not_nil _ _ E).
Qed.

(** The first line holds no line feed and the output is this line, alone
    or followed by a line feed and the rest. *)
Lemma first_line_spec (s : string) :
  (forall i, String.get i (first_line s) <> Some PyStr.nl) /\
  (s = first_line s \/
   exists rest, s = (first_line s ++ String PyStr.nl rest)%string).
Proof.
  unfold first_line.
  induction s as [|c s [IHn IHs]]; simpl.
  - split; [intros [|i]; discriminate | left; reflexivity].
  - destruct (Ascii.eqb_spec c PyStr.nl) as [->|Hc].
    + split; [intros [|i]; discriminate | right; exists s; reflexivity].
    + pose proof (split_not_nil PyStr.nl s) as Hne.
      destruct (PyStr.split PyStr.nl s) as [|l ls]; [contradiction|].
      split.
      * intros [|i]; simpl; [congruence | apply IHn].
      * destruct IHs as [->|[rest ->]].
        -- left; reflexivity.
        -- right; exists rest; reflexivity.
Qed.

Lemma append_inj_l (p x y : string) :
  (p ++ x)%string = (p ++ y)%string -> x = y.
Proof.
  induction p as [|c p IH]; simpl; intros H; [exact H|].
  injection H as H; auto.
Qed.

Lemma get_set_same (d : Dict.t) (k : string) (v : bool) :
  Dict.get (Dict.set d k v) k = Some v.
Proof.
  induction d as [|[k' v'] d IH]; simpl.
  - now rewrite String.eqb_refl.
  - destruct (String.eqb k' k) eqn:E; simpl; rewrite E; auto.
Qed.

Lemma keys_set_new (d : Dict.t) (k : string) (v : bool) :
  ~ In k (Dict.keys d) -> Dict.keys (Dict.set d k v) = Dict.keys d ++ [k].
Proof.
  induction d as [|[k' v'] d IH]; simpl; intros H; [reflexivity|].
  destruct (String.eqb_spec k' k) as [->|Hne].
  - exfalso; apply H; now left.
  - simpl. f_equal. apply IH. intros Hin; apply H; now right.
Qed.

Lemma keys_set_old (d : Dict.t) (k : string) (v : bool) :
  In k (Dict.keys d) -> Dict.keys (Dict.set d k v) = Dict.keys d.
Proof.
  induction d as [|[k' v'] d IH]; simpl; intros H; [contradiction|].
  destruct (String.eqb_spec k' k) as [->|Hne]; [reflexivity|].
  simpl. f_equal. apply IH. destruct H as [H|H]; [contradiction|exact H].
Qed.

Lemma keys_set_nodup (d : Dict.t) (k : string) (v : bool) :
  NoDup (Dict.keys d) -> NoDup (Dict.keys (Dict.set d k v)).
Proof.
  intros Hnd. destruct (in_dec string_dec k (Dict.keys d)) as [Hin|Hout].
  - now rewrite keys_set_old.
  - rewrite keys_set_new by exact Hout.
    apply NoDup_app; [exact Hnd | repeat constructor; intros [] |].
    intros x Hx [<-|[]]. contradiction.
Qed.

Lemma py_all_true (l : list bool) :
  py_all l = true <-> (forall b, In b l -> b = true).
Proof.
  unfold py_all. rewrite forallb_forall. reflexivity.
Qed.

Lemma py_all_perm (l l' : list bool) :
  Permutation l l' -> py_all l = py_all l'.
Proof.
  induction 1 as [|x l l' _ IH|x y l|l l' l'' _ IH1 _ IH2]; simpl.
  - reflexivity.
  - now rewrite IH.
  - destruct x, y; reflexivity.
  - congruence.
Qed.

Lemma values_set_false (d : Dict.t) (k : string) :
  In false (Dict.values (Dict.set d k false)).
Proof.
  induction d as [|[k' v'] d IH]; simpl.
  - now left.
  - destruct (String.eqb k' k); simpl; [now left | now right].
Qed.

(** ** One probe *)

Section ProbeProperties.

Variable OS : Type.
Variable subprocess_run : list string -> Z -> OS -> run_result * OS.

(** What a probe does, by the way its [subprocess.run] call ends. *)
Lemma probe_cases (results : Dict.t) (name : string) (cmd : list string) (os : OS) :
  probe subprocess_run results name cmd os =
  let os' := snd (subprocess_run cmd 5 os) in
  match fst (subprocess_run cmd 5 os) with
  | Completed p =>
      if (returncode p =? 0)%Z
      then (Ok (Dict.set results name true),
            [Run cmd 5; Print ("✓ " ++ name ++ " is installed");
             Print ("  " ++ first_line (stdout p))], os')
      else (Ok (Dict.set results name false),
            [Run cmd 5; Print (failure_message name NonZeroExit)], os')
  | Raised e =>
      if caught e
      then (Ok (Dict.set results name false),
            [Run cmd 5; Print ("✗ " ++ name ++ " not installed")], os')
      else (Raise e, [Run cmd 5], os')
  end.
Proof.
  unfold probe, try_except, bind, run, print, ret, lift.
  destruct (subprocess_run cmd 5 os) as [[p|e] os1]; simpl.
  - destruct (returncode p =? 0)%Z; simpl; [|reflexivity].
    rewrite split_index_0. reflexivity.
  - destruct (caught e); reflexivity.
Qed.

Lemma probe_classified (results : Dict.t) (name : string) (cmd : list string)
    (os : OS) (c : cause) :
  classified (fst (subprocess_run cmd 5 os)) (Some c) ->
  probe subprocess_run results name cmd os =
  (Ok (Dict.set results name false),
   [Run cmd 5; Print (failure_message name c)],
   snd (subprocess_run cmd 5 os)).
Proof.
  intros H. rewrite probe_cases.
  inversion H as [|p Hp Hr| |]; subst; simpl.
  - apply Z.eqb_neq in Hp. rewrite Hp. reflexivity.
  - reflexivity.
  - reflexivity.
Qed.

(** C1. A probe records the tool as available exactly when its process
    started, completed within the timeout and exited with status zero; the
    detail printed then is the first line of the captured standard output:
    it holds no line feed and the output is this line, alone or followed by
    a line feed and more. *)
Theorem probe_available_iff_exit_zero
    (results : Dict.t) (name : string) (cmd : list string) (os : OS) :
  let r := fst (subprocess_run cmd 5 os) in
  let out := probe subprocess_run results name cmd os in
  ((exists d, value out = Ok d /\ Dict.get d name = Some true) <-> exits_zero r)
  /\
  (forall p, r = Completed p -> returncode p = 0%Z ->
     exists detail,
       trace out = [Run cmd 5; Print ("✓ " ++ name ++ " is installed");
                    Print ("  " ++ detail)] /\
       (forall i, String.get i detail <> Some PyStr.nl) /\
       (stdout p = detail \/
        exists rest, stdout p = (detail ++ String PyStr.nl rest)%string)).
Proof.
  intros r out. subst r out. rewrite probe_cases. split.
  - split.
    + intros [d [Hv Hg]]. revert Hv Hg.
      destruct (fst (subprocess_run cmd 5 os)) as [p|e]; simpl.
      * destruct (returncode p =? 0)%Z eqn:E; unfold value; simpl; intros Hv Hg.
        -- exists p. split; [reflexivity | now apply Z.eqb_eq].
        -- injection Hv as <-. rewrite get_set_same in Hg. discriminate.
      * destruct (caught e); unfold value; simpl; intros Hv Hg.
        -- injection Hv as <-. rewrite get_set_same in Hg. discriminate.
        -- discriminate.
    + intros [p [-> Hp]]. simpl. apply Z.eqb_eq in Hp. rewrite Hp.
      eexists. split; [reflexivity | apply get_set_same].
  - intros p -> Hp. simpl. apply Z.eqb_eq in Hp. rewrite Hp.
    exists (first_line (stdout p)). split; [reflexivity|].
    apply first_line_spec.
Qed.

(** C10. A process that exits with zero and wrote nothing still makes the
    tool available: the first piece of the split of the empty output is
    the empty string, no exception is raised, and the detail line printed
    is the two spaces of the indentation. *)
Theorem probe_empty_stdout
    (results : Dict.t) (name : string) (cmd : list string) (os : OS)
    (p : CompletedProcess) :
  fst (subprocess_run cmd 5 os) = Completed p ->
  returncode p = 0%Z ->
  stdout p = EmptyString ->
  py_index (PyStr.split PyStr.nl (stdout p)) 0 = Ok EmptyString /\
  exists d,
    probe subprocess_run results name cmd os =
      (Ok d, [Run cmd 5; Print ("✓ " ++ name ++ " is installed"); Print "  "],
       snd (subprocess_run cmd 5 os)) /\
    Dict.get d name = Some true.
Proof.
  intros Hr Hp Ho. split.
  - rewrite Ho. reflexivity.
  - rewrite probe_cases, Hr. simpl.
    apply Z.eqb_eq in Hp. rewrite Hp, Ho.
    eexists. split; [reflexivity | apply get_set_same].
Qed.

End ProbeProperties.

Lemma answering_classified : host_classified Host.answering.
Proof.
  intros cmd t [|[code out| |] os]; simpl.
  - eexists; constructor.
  - destruct (Z.eq_dec code 0) as [->|Hc].
    + exists None. now constructor.
    + exists (Some NonZeroExit). now constructor.
  - eexists; constructor.
  - eexists; constructor.
Qed.

(** ** The loop over the tools *)

Section LoopProperties.

Variable OS : Type.
Variable subprocess_run : list string -> Z -> OS -> run_result * OS.

Lemma for_tools_cons (name : string) (cmd : list string)
    (l : list (string * list string)) (results : Dict.t) (os : OS) :
  for_tools subprocess_run ((name, cmd) :: l) results os =
  match probe subprocess_run results name cmd os with
  | (Ok d, t, os1) =>
      (value (for_tools subprocess_run l d os1),
       t ++ trace (for_tools subprocess_run l d os1),
       host (for_tools subprocess_run l d os1))
  | (Raise e, t, os1) => (Raise e, t, os1)
  end.
Proof.
  simpl. unfold bind at 1.
  destruct (probe subprocess_run results name cmd os) as [[[d|e] t] os1];
    [|reflexivity].
  destruct (for_tools subprocess_run l d os1) as [[r2 t2] os2]. reflexivity.
Qed.

(** On a host that stays within the design's four outcomes a probe
    returns: it spawns the command, prints at least one line and writes
    the entry of the tool. *)
Lemma probe_returns (results : Dict.t) (name : string) (cmd : list string) (os : OS) :
  host_classified subprocess_run ->
  exists v line rest,
    probe subprocess_run results name cmd os =
    (Ok (Dict.set results name v),
     Run cmd 5 :: Print line :: map Print rest,
     snd (subprocess_run cmd 5 os)) /\
    (v = true <-> exits_zero (fst (subprocess_run cmd 5 os))) /\
    (line = ("✓ " ++ name ++ " is installed")%string \/
     exists c, line = failure_message name c).
Proof.
  intros Hh. destruct (Hh cmd 5%Z os) as [c Hc].
  destruct c as [c|].
  - exists false, (failure_message name c), [].
    split; [now apply probe_classified|]. split.
    + split; [discriminate|]. intros [p [Hp Hz]]. rewrite Hp in Hc.
      inversion Hc; congruence.
    + right. now exists c.
  - inversion Hc as [p Hp Hr| | |]; subst.
    exists true, ("✓ " ++ name ++ " is installed")%string,
      [("  " ++ first_line (stdout p))%string].
    split; [|split].
    + rewrite probe_cases, <- Hr. simpl. rewrite Hp. reflexivity.
    + split; [|reflexivity]. intros _. now exists p.
    + now left.
Qed.

Lemma spawned_app (t1 t2 : list event) :
  spawned (t1 ++ t2) = spawned t1 ++ spawned t2.
Proof.
  induction t1 as [|[s|c z] t1 IH]; simpl; [reflexivity|exact IH|].
  now rewrite IH.
Qed.

Lemma spawned_prints (lines : list string) : spawned (map Print lines) = [].
Proof. induction lines; simpl; auto. Qed.

(** On such a host the loop returns, has probed every tool in order, keeps
    the keys of the dict free of repetition and, when the names are new
    and distinct, has appended them to the keys. *)
Lemma for_tools_returns (l : list (string * list string)) :
  host_classified subprocess_run ->
  forall results os,
  exists d t os',
    for_tools subprocess_run l results os = (Ok d, t, os') /\
    spawned t = map snd l /\
    (NoDup (Dict.keys results) -> NoDup (Dict.keys d)) /\
    (NoDup (Dict.keys results ++ map fst l) ->
     Dict.keys d = Dict.keys results ++ map fst l).
Proof.
  intros Hh. induction l as [|[name cmd] l IH]; intros results os.
  - exists results, [], os. simpl. split; [reflexivity|]. split; [reflexivity|].
    split; [auto|]. intros _. now rewrite app_nil_r.
  - destruct (probe_returns results name cmd os Hh)
      as [v [line [rest [Hp _]]]].
    destruct (IH (Dict.set results name v) (snd (subprocess_run cmd 5 os)))
      as [d [t [os' [Hf [Hs [Hn Hk]]]]]].
    rewrite for_tools_cons, Hp, Hf. unfold value, trace, host; simpl.
    do 3 eexists. split; [reflexivity|]. split; [|split].
    + cbn [spawned]. rewrite spawned_app, spawned_prints, Hs. reflexivity.
    + intros Hnd. now apply Hn, keys_set_nodup.
    + intros Hnd. simpl in Hnd.
      assert (Hnew : ~ In name (Dict.keys results)).
      { apply NoDup_remove_2 in Hnd. intros Hin. apply Hnd.
        apply in_or_app. now left. }
      rewrite Hk; rewrite (keys_set_new _ _ _ Hnew).
      * now rewrite <- app_assoc.
      * rewrite <- app_assoc. exact Hnd.
Qed.

End LoopProperties.

(** ** The readiness check *)

Section CheckProperties.

Variable OS : Type.
Variable subprocess_run : list string -> Z -> OS -> run_result * OS.

(** [check_prerequisites] prints its header, runs the loop from the empty
    dict and returns the conjunction of the values of the dict the loop
    has finished. *)
Lemma check_prerequisites_cases (os : OS) :
  check_prerequisites subprocess_run os =
  match for_tools subprocess_run tools Dict.empty os with
  | (Ok d, t, os') =>
      (Ok (py_all (Dict.values d)),
       section_events "Checking Prerequisites" ++ t, os')
  | (Raise e, t, os') =>
      (Raise e, section_events "Checking Prerequisites" ++ t, os')
  end.
Proof.
  unfold check_prerequisites, print_section, bind, print, ret.
  destruct (for_tools subprocess_run tools Dict.empty os) as [[[d|e] t] os'];
    unfold section_events; simpl; [|reflexivity].
  now rewrite app_nil_r.
Qed.

(** C2. A [FileNotFoundError] or a [TimeoutExpired] raised by the spawn is
    caught inside the probe: the probe returns with the tool recorded as
    unavailable, the loop goes on with the remaining tools from there, and
    on a host whose commands end in one of the design's four ways the loop
    returns having spawned every command. *)
Theorem spawn_failure_is_caught
    (results : Dict.t) (name : string) (cmd : list string)
    (rest : list (string * list string)) (os : OS) (e : exn) :
  fst (subprocess_run cmd 5 os) = Raised e ->
  e = FileNotFoundError \/ e = TimeoutExpired ->
  let os1 := snd (subprocess_run cmd 5 os) in
  let d := Dict.set results name false in
  let line := Print ("✗ " ++ name ++ " not installed") in
  probe subprocess_run results name cmd os = (Ok d, [Run cmd 5; line], os1) /\
  Dict.get d name = Some false /\
  for_tools subprocess_run ((name, cmd) :: rest) results os =
    (value (for_tools subprocess_run rest d os1),
     [Run cmd 5; line] ++ trace (for_tools subprocess_run rest d os1),
     host (for_tools subprocess_run rest d os1)) /\
  (host_classified subprocess_run ->
   exists d' t os',
     for_tools subprocess_run ((name, cmd) :: rest) results os = (Ok d', t, os') /\
     spawned t = cmd :: map snd rest).
Proof.
  intros Hr He os1 d line.
  assert (Hp : probe subprocess_run results name cmd os
               = (Ok d, [Run cmd 5; line], os1)).
  { rewrite probe_cases, Hr. destruct He as [-> | ->]; reflexivity. }
  split; [exact Hp|]. split; [apply get_set_same|]. split.
  - rewrite for_tools_cons, Hp. reflexivity.
  - intros Hh.
    destruct (for_tools_returns OS subprocess_run ((name, cmd) :: rest) Hh results os)
      as [d' [t [os' [Hf [Hs _]]]]].
    now exists d', t, os'.
Qed.

(** C6, as the code has it.  A probe that failed for any of the three
    causes returns with the tool recorded as unavailable and prints one
    message, chosen by the cause: a nonzero exit has a message of its own,
    "not found or not working", while a missing executable and a timeout
    share the message "not installed". *)
Theorem failure_message_by_cause
    (results : Dict.t) (name : string) (cmd : list string) (os : OS) (c : cause) :
  classified (fst (subprocess_run cmd 5 os)) (Some c) ->
  (exists d,
     value (probe subprocess_run results name cmd os) = Ok d /\
     Dict.get d name = Some false) /\
  printed (trace (probe subprocess_run results name cmd os))
    = [failure_message name c] /\
  failure_message name NonZeroExit
    = ("✗ " ++ name ++ " not found or not working")%string /\
  failure_message name NotInstalled = ("✗ " ++ name ++ " not installed")%string /\
  failure_message name NonZeroExit <> failure_message name NotInstalled /\
  failure_message name NonZeroExit <> failure_message name TimedOut /\
  failure_message name NotInstalled = failure_message name TimedOut.
Proof.
  intros Hc. rewrite (probe_classified _ _ _ _ _ _ _ Hc).
  split.
  { eexists. split; [reflexivity | apply get_set_same]. }
  split; [reflexivity|]. split; [reflexivity|]. split; [reflexivity|].
  assert (Hne : failure_message name NonZeroExit
                <> failure_message name NotInstalled).
  { unfold failure_message. intros H.
    apply (append_inj_l "✗ ") in H. apply append_inj_l in H. discriminate. }
  split; [exact Hne|]. split; [exact Hne | reflexivity].
Qed.

(** C3. The boolean [check_prerequisites] returns is the conjunction of
    the entries of the report the loop finished: it is true exactly when
    every entry is true, writing false to any entry makes the conjunction
    false, and the conjunction is the same in any order of the entries. *)
Theorem overall_ready_is_conjunction
    (os : OS) (d : Dict.t) (t : list event) (os' : OS) :
  for_tools subprocess_run tools Dict.empty os = (Ok d, t, os') ->
  exists b,
    value (check_prerequisites subprocess_run os) = Ok b /\
    b = py_all (Dict.values d) /\
    (b = true <-> forall name v, In (name, v) d -> v = true) /\
    (forall name, In name (Dict.keys d) ->
       py_all (Dict.values (Dict.set d name false)) = false) /\
    (forall d', Permutation d d' -> py_all (Dict.values d') = b).
Proof.
  intros Hf. exists (py_all (Dict.values d)).
  split; [now rewrite check_prerequisites_cases, Hf|].
  split; [reflexivity|]. split; [|split].
  - rewrite py_all_true. unfold Dict.values. split.
    + intros H name v Hin. apply H. now apply (in_map snd) in Hin.
    + intros H b Hin. apply in_map_iff in Hin as [[name v] [<- Hin]].
      now apply (H name).
  - intros name _.
    destruct (py_all (Dict.values (Dict.set d name false))) eqn:E;
      [|reflexivity].
    rewrite py_all_true in E. symmetry. apply E, values_set_false.
  - intros d' Hperm. symmetry. apply py_all_perm.
    unfold Dict.values. now apply Permutation_map.
Qed.

End CheckProperties.

Section ReportProperties.

Variable OS : Type.
Variable subprocess_run : list string -> Z -> OS -> run_result * OS.
Hypothesis classified_host : host_classified subprocess_run.

(** C4. Whatever the outcome of each probe, the loop ends with a report
    in which no key occurs twice, and for tools with distinct names the
    keys are the names of the tools in the order of the list: one entry
    per tool.  For the two tools of the script the keys are Docker and
    FFmpeg, and the boolean returned is computed from this finished
    report. *)
Theorem report_has_one_entry_per_tool (os : OS) :
  (forall l,
     exists d t os',
       for_tools subprocess_run l Dict.empty os = (Ok d, t, os') /\
       NoDup (Dict.keys d) /\
       (NoDup (map fst l) ->
        Dict.keys d = map fst l /\ length d = length l)) /\
  (exists d t os',
     for_tools subprocess_run tools Dict.empty os = (Ok d, t, os') /\
     Dict.keys d = ["Docker"; "FFmpeg"]%string /\
     length d = 2 /\
     check_prerequisites subprocess_run os =
       (Ok (py_all (Dict.values d)),
        section_events "Checking Prerequisites" ++ t, os')).
Proof.
  assert (Hlen : forall (d : Dict.t) (names : list string),
            Dict.keys d = names -> length d = length names).
  { intros d names <-. unfold Dict.keys. now rewrite length_map. }
  split.
  - intros l.
    destruct (for_tools_returns OS subprocess_run l classified_host Dict.empty os)
      as [d [t [os' [Hf [_ [Hn Hk]]]]]].
    exists d, t, os'. split; [exact Hf|]. split; [apply Hn; constructor|].
    intros Hnd. specialize (Hk Hnd). simpl in Hk. split; [exact Hk|].
    rewrite (Hlen d _ Hk). apply length_map.
  - destruct (for_tools_returns OS subprocess_run tools classified_host Dict.empty os)
      as [d [t [os' [Hf [_ [_ Hk]]]]]].
    assert (Hkeys : Dict.keys d = ["Docker"; "FFmpeg"]%string).
    { apply Hk. simpl. repeat constructor; simpl; intuition discriminate. }
    exists d, t, os'. split; [exact Hf|]. split; [exact Hkeys|].
    split; [exact (Hlen d _ Hkeys)|].
    now rewrite check_prerequisites_cases, Hf.
Qed.

(** C9. The check spawns exactly two commands, [docker --version] and then
    [ffmpeg -version], each with the timeout 5, and the line that reports a
    tool is printed right after the run of that tool: the report of Docker
    comes before FFmpeg is spawned. *)
Theorem two_tools_probed_in_order (os : OS) :
  exists b line1 rest1 line2 rest2 os',
    check_prerequisites subprocess_run os =
      (Ok b,
       section_events "Checking Prerequisites" ++
       Run ["docker"; "--version"]%string 5 :: Print line1 :: map Print rest1 ++
       Run ["ffmpeg"; "-version"]%string 5 :: Print line2 :: map Print rest2,
       os') /\
    (line1 = "✓ Docker is installed"%string \/
     exists c, line1 = failure_message "Docker" c) /\
    (line2 = "✓ FFmpeg is installed"%string \/
     exists c, line2 = failure_message "FFmpeg" c) /\
    spawned (trace (check_prerequisites subprocess_run os)) =
      [["docker"; "--version"]; ["ffmpeg"; "-version"]]%string.
Proof.
  rewrite check_prerequisites_cases. unfold tools.
  destruct (probe_returns OS subprocess_run Dict.empty "Docker"
              ["docker"; "--version"]%string os classified_host)
    as [v1 [line1 [rest1 [Hp1 [_ Hl1]]]]].
  set (os1 := snd (subprocess_run ["docker"; "--version"]%string 5%Z os)) in *.
  destruct (probe_returns OS subprocess_run (Dict.set Dict.empty "Docker" v1)
              "FFmpeg" ["ffmpeg"; "-version"]%string os1 classified_host)
    as [v2 [line2 [rest2 [Hp2 [_ Hl2]]]]].
  rewrite for_tools_cons, Hp1, for_tools_cons, Hp2.
  unfold value, trace, host; simpl.
  exists (py_all (Dict.values
            (Dict.set (Dict.set Dict.empty "Docker" v1) "FFmpeg" v2))),
    line1, rest1, line2, rest2.
  eexists. split; [|split; [exact Hl1 | split; [exact Hl2|]]].
  - rewrite app_nil_r. reflexivity.
  - rewrite spawned_app, spawned_prints. simpl.
    rewrite spawned_app, spawned_prints. reflexivity.
Qed.

End ReportProperties.

(** ** The whole run *)

Section MainProperties.

Variable OS : Type.
Variable subprocess_run : list string -> Z -> OS -> run_result * OS.
Variable texts : static_text.

(** [main] by the outcome of the check: the banner, the check, the seven
    demonstrations, the summary and, when the check returned false, the
    warning; then it returns 0. *)
Lemma main_cases (os : OS) :
  main subprocess_run texts os =
  match check_prerequisites subprocess_run os with
  | (Ok prereq_ok, tc, os1) =>
      (Ok 0%Z,
       banner_events ++ tc ++ demo_events texts ++
       section_events "Quick Start Summary" ++ [Print summary] ++
       (if prereq_ok then [] else warning_block),
       os1)
  | (Raise e, tc, os1) => (Raise e, banner_events ++ tc, os1)
  end.
Proof.
  unfold main, demo_workflow, demo_docker_usage, demo_config, demo_python_api,
    demo_supported_features, demo_storage, demo_quick_start, print_section,
    bind, print, ret.
  destruct (check_prerequisites subprocess_run os) as [[[ok|e] tc] os1].
  - unfold banner_events, demo_events, section_events, warning_block.
    cbn [app]. do 3 f_equal. f_equal. destruct ok; reflexivity.
  - reflexivity.
Qed.

(** The check returns true exactly when both commands exit with zero. *)
Lemma ready_iff_both_exit_zero (os : OS) :
  host_classified subprocess_run ->
  exists ok tc os2,
    check_prerequisites subprocess_run os = (Ok ok, tc, os2) /\
    (ok = true <->
     exits_zero (fst (subprocess_run ["docker"; "--version"]%string 5%Z os)) /\
     exits_zero
       (fst (subprocess_run ["ffmpeg"; "-version"]%string 5%Z
               (snd (subprocess_run ["docker"; "--version"]%string 5%Z os))))).
Proof.
  intros Hh. rewrite check_prerequisites_cases. unfold tools.
  destruct (probe_returns OS subprocess_run Dict.empty "Docker"
              ["docker"; "--version"]%string os Hh)
    as [v1 [line1 [rest1 [Hp1 [Hv1 _]]]]].
  set (os1 := snd (subprocess_run ["docker"; "--version"]%string 5%Z os)) in *.
  destruct (probe_returns OS subprocess_run (Dict.set Dict.empty "Docker" v1)
              "FFmpeg" ["ffmpeg"; "-version"]%string os1 Hh)
    as [v2 [line2 [rest2 [Hp2 [Hv2 _]]]]].
  rewrite for_tools_cons, Hp1, for_tools_cons, Hp2.
  unfold value, trace, host; simpl.
  do 3 eexists. split; [reflexivity|].
  rewrite <- Hv1, <- Hv2, !andb_true_iff. tauto.
Qed.

(** C5. The run ends with the warning block exactly when the check
    returned false; when it returned true, which is when both tools exited
    with zero, the last thing printed is the summary. *)
Theorem warning_iff_not_ready (os : OS) :
  host_classified subprocess_run ->
  exists ok tc os1,
    check_prerequisites subprocess_run os = (Ok ok, tc, os1) /\
    (ends_with warning_block (trace (main subprocess_run texts os))
       <-> ok = false) /\
    (ok = true ->
       ends_with [Print summary] (trace (main subprocess_run texts os))) /\
    (ok = true <->
     exits_zero (fst (subprocess_run ["docker"; "--version"]%string 5%Z os)) /\
     exits_zero
       (fst (subprocess_run ["ffmpeg"; "-version"]%string 5%Z
               (snd (subprocess_run ["docker"; "--version"]%string 5%Z os))))).
Proof.
  intros Hh.
  destruct (ready_iff_both_exit_zero os Hh) as [ok [tc [os1 [Hc Hready]]]].
  exists ok, tc, os1. split; [exact Hc|].
  rewrite main_cases, Hc. unfold trace; cbn [fst snd].
  split; [|split; [|exact Hready]]; clear Hready; destruct ok.
  - split; [|discriminate]. intros [pre Hpre]. exfalso.
    rewrite app_nil_r in Hpre. unfold warning_block in Hpre.
    change (pre ++ [?a; ?b; ?c]) with (pre ++ [a; b] ++ [c]) in Hpre.
    rewrite !app_assoc in Hpre.
    apply app_inj_tail in Hpre as [_ Hlast].
    injection Hlast as Hlast. vm_compute in Hlast. discriminate.
  - split; [reflexivity|]. intros _.
    exists (banner_events ++ tc ++ demo_events texts ++
            section_events "Quick Start Summary" ++ [Print summary]).
    now rewrite <- !app_assoc.
  - intros _. rewrite app_nil_r.
    exists (banner_events ++ tc ++ demo_events texts ++
            section_events "Quick Start Summary").
    now rewrite <- !app_assoc.
  - discriminate.
Qed.

(** C7. Whatever the outcomes of the probes, all tools missing included,
    [main] returns 0 and the process exits with status 0. *)
Theorem exit_status_is_zero (os : OS) :
  host_classified subprocess_run ->
  value (main subprocess_run texts os) = Ok 0%Z /\
  exit_status subprocess_run texts os = 0%Z.
Proof.
  intros Hh.
  destruct (ready_iff_both_exit_zero os Hh) as [ok [tc [os1 [Hc _]]]].
  unfold exit_status. rewrite main_cases, Hc. split; reflexivity.
Qed.

End MainProperties.

(** ** The properties on concrete hosts *)

(** An exception of a class the [except] clause does not name leaves the
    probe, the loop and [main]: the second tool is not probed and the
    interpreter exits with status 1.  This is the edge of the four outcomes
    the properties above range over. *)
Lemma unnamed_exception_propagates :
  let os := [Raised (OtherException "PermissionError")] in
  check_prerequisites Host.scripted os =
    (Raise (OtherException "PermissionError"),
     section_events "Checking Prerequisites" ++
     [Run ["docker"; "--version"]%string 5], []) /\
  exit_status Host.scripted Host.no_text os = 1%Z.
Proof. split; reflexivity. Qed.

(** The scenario with Docker present and FFmpeg failing. *)
Lemma scenario_docker_only :
  check_prerequisites Host.answering Host.docker_only =
    (Ok false,
     section_events "Checking Prerequisites" ++
     [ Run ["docker"; "--version"]%string 5;
       Print "✓ Docker is installed";
       Print "  Docker version 24.0.5";
       Run ["ffmpeg"; "-version"]%string 5;
       Print "✗ FFmpeg not found or not working" ],
     []).
Proof. reflexivity. Qed.

Lemma probe_available_iff_exit_zero_witness :
  exists d,
    value (probe Host.answering Dict.empty "Docker" ["docker"; "--version"]%string
             [Host.Exit 0 "Docker version 24.0.5"]) = Ok d /\
    Dict.get d "Docker" = Some true.
Proof.
  apply (proj1 (probe_available_iff_exit_zero _ Host.answering Dict.empty
                  "Docker" ["docker"; "--version"]%string
                  [Host.Exit 0 "Docker version 24.0.5"])).
  eexists. split; reflexivity.
Defined.

Lemma probe_empty_stdout_witness :
  exists d,
    probe Host.answering Dict.empty "FFmpeg" ["ffmpeg"; "-version"]%string
      [Host.Exit 0 EmptyString] =
      (Ok d, [Run ["ffmpeg"; "-version"]%string 5;
              Print "✓ FFmpeg is installed"; Print "  "], []) /\
    Dict.get d "FFmpeg" = Some true.
Proof.
  apply (probe_empty_stdout _ Host.answering Dict.empty "FFmpeg"
           ["ffmpeg"; "-version"]%string [Host.Exit 0 EmptyString]
           (mkCompleted 0 EmptyString EmptyString));
    reflexivity.
Defined.

Lemma spawn_failure_is_caught_witness :
  exists d' t os',
    for_tools Host.answering tools Dict.empty [Host.Missing; Host.Hang]
      = (Ok d', t, os') /\
    spawned t = [["docker"; "--version"]; ["ffmpeg"; "-version"]]%string.
Proof.
  apply (spawn_failure_is_caught _ Host.answering Dict.empty "Docker"
           ["docker"; "--version"]%string
           [("FFmpeg", ["ffmpeg"; "-version"]%string)]
           [Host.Missing; Host.Hang] FileNotFoundError).
  - reflexivity.
  - left; reflexivity.
  - exact answering_classified.
Defined.

Lemma failure_message_by_cause_witness :
  (exists d,
     value (probe Host.answering Dict.empty "Docker"
              ["docker"; "--version"]%string [Host.Hang]) = Ok d /\
     Dict.get d "Docker" = Some false) /\
  printed (trace (probe Host.answering Dict.empty "Docker"
                    ["docker"; "--version"]%string [Host.Hang]))
    = ["✗ Docker not installed"%string].
Proof.
  destruct (failure_message_by_cause _ Host.answering Dict.empty "Docker"
              ["docker"; "--version"]%string [Host.Hang] TimedOut)
    as [Hd [Hp _]].
  - simpl. constructor.
  - split; [exact Hd | exact Hp].
Defined.

(** C6, as stated, fails: a missing executable and a timeout are two
    causes, and the failed probe prints the same line for both. *)
Lemma timeout_reads_as_not_installed :
  ~ causes_distinguishable Host.answering "Docker" ["docker"; "--version"]%string.
Proof.
  intros H.
  apply (H [Host.Missing] [Host.Hang] NotInstalled TimedOut).
  - simpl. constructor.
  - simpl. constructor.
  - discriminate.
  - reflexivity.
Qed.

Lemma overall_ready_is_conjunction_witness :
  exists b,
    value (check_prerequisites Host.answering Host.docker_only) = Ok b /\
    b = false.
Proof.
  destruct (overall_ready_is_conjunction _ Host.answering Host.docker_only
              _ _ _ eq_refl) as [b [Hv [Hb _]]].
  exists b. split; [exact Hv | exact Hb].
Defined.

Lemma report_has_one_entry_per_tool_witness :
  exists d t os',
    for_tools Host.answering tools Dict.empty [Host.Hang] = (Ok d, t, os') /\
    Dict.keys d = ["Docker"; "FFmpeg"]%string.
Proof.
  destruct (proj2 (report_has_one_entry_per_tool _ Host.answering
                     answering_classified [Host.Hang]))
    as [d [t [os' [Hf [Hk _]]]]].
  exists d, t, os'. split; [exact Hf | exact Hk].
Defined.

Lemma two_tools_probed_in_order_witness :
  spawned (trace (check_prerequisites Host.answering Host.both_present)) =
    [["docker"; "--version"]; ["ffmpeg"; "-version"]]%string.
Proof.
  destruct (two_tools_probed_in_order _ Host.answering answering_classified
              Host.both_present)
    as [b [l1 [r1 [l2 [r2 [os' [_ [_ [_ Hs]]]]]]]]].
  exact Hs.
Defined.

Lemma warning_iff_not_ready_witness :
  exists ok tc os1,
    check_prerequisites Host.answering Host.docker_only = (Ok ok, tc, os1) /\
    (ends_with warning_block
       (trace (main Host.answering Host.no_text Host.docker_only))
     <-> ok = false).
Proof.
  destruct (warning_iff_not_ready _ Host.answering Host.no_text
              Host.docker_only answering_classified)
    as [ok [tc [os1 [Hc [Hw _]]]]].
  exists ok, tc, os1. split; [exact Hc | exact Hw].
Defined.

Lemma exit_status_is_zero_witness :
  exit_status Host.answering Host.no_text [Host.Missing; Host.Missing] = 0%Z.
Proof.
  apply (exit_status_is_zero _ Host.answering Host.no_text
           [Host.Missing; Host.Missing] answering_classified).
Defined.

(** * Further properties of the script *)

(** ** The banner: [str.center] *)

Lemma repeat_char_length (c : ascii) (n : nat) :
  String.length (PyStr.repeat_char c n) = n.
Proof. induction n; simpl; congruence. Qed.

Lemma append_length (a b : string) :
  String.length (a ++ b) = String.length a + String.length b.
Proof. induction a; simpl; congruence. Qed.

Lemma append_empty_r (a : string) : (a ++ "")%string = a.
Proof. induction a; simpl; congruence. Qed.

(** The bit test of [center]: one exactly when margin and width are odd. *)
Lemma land_parity (m w : nat) :
  Nat.land (Nat.land m w) 1 = Nat.b2n (Nat.odd m && Nat.odd w).
Proof.
  change 1 with (Nat.ones 1) at 1. rewrite Nat.land_ones.
  change (2 ^ 1) with 2. rewrite <- Nat.bit0_mod, Nat.land_spec.
  now rewrite !Nat.bit0_odd.
Qed.

Lemma half_plus_parity (m : nat) (b : bool) :
  (b = true -> Nat.odd m = true) ->
  m / 2 + Nat.b2n b <= m /\
  (m - (m / 2 + Nat.b2n b) <= m / 2 + Nat.b2n b + 1) /\
  (m / 2 + Nat.b2n b <= m - (m / 2 + Nat.b2n b) + 1).
Proof.
  intros Hb.
  pose proof (Nat.div_mod_eq m 2) as Hdm.
  pose proof (Nat.mod_upper_bound m 2 ltac:(discriminate)) as Hlt.
  destruct b; cbn [Nat.b2n].
  - specialize (Hb eq_refl). rewrite <- Nat.bit0_odd in Hb.
    pose proof (Nat.bit0_mod m) as H0. rewrite Hb in H0. cbn [Nat.b2n] in H0.
    lia.
  - lia.
Qed.

(** The banner lines of [main] are centred as CPython does it: the text is
    kept whole between two runs of the fill character whose lengths differ
    by at most one and add up to the margin, a text that is already as wide
    as the field comes back unchanged, and so the line is as long as the
    wider of the field and the text. *)
Theorem center_pads_both_sides (s : string) (width : nat) (fill : ascii) :
  (width <= String.length s -> PyStr.center s width fill = s) /\
  (exists left right,
     PyStr.center s width fill =
       (PyStr.repeat_char fill left ++ s ++ PyStr.repeat_char fill right)%string /\
     left + right = width - String.length s /\
     left <= right + 1 /\ right <= left + 1) /\
  String.length (PyStr.center s width fill) = Nat.max width (String.length s).
Proof.
  unfold PyStr.center.
  destruct (Nat.leb_spec width (String.length s)) as [Hle|Hlt].
  - split; [reflexivity|]. split.
    + exists 0, 0. simpl. rewrite append_empty_r. split; [reflexivity | lia].
    + lia.
  - split; [lia|].
    set (marg := width - String.length s).
    rewrite land_parity.
    destruct (half_plus_parity marg (Nat.odd marg && Nat.odd width))
      as [H1 [H2 H3]].
    { intros H. now apply andb_true_iff in H. }
    split.
    + do 2 eexists. split; [reflexivity|]. lia.
    + rewrite !append_length, !repeat_char_length. lia.
Qed.

(** ** Exceptions the [except] clause does not name *)

Section UncaughtExceptions.

Variable OS : Type.
Variable subprocess_run : list string -> Z -> OS -> run_result * OS.

(** A probe either returns, having printed at least one line and written
    the entry of the tool, or re-raises what the spawn raised, having
    printed nothing. *)
Lemma probe_returns_or_raises
    (results : Dict.t) (name : string) (cmd : list string) (os : OS) :
  let r := fst (subprocess_run cmd 5 os) in
  let os' := snd (subprocess_run cmd 5 os) in
  (exists v line rest,
     probe subprocess_run results name cmd os =
       (Ok (Dict.set results name v),
        Run cmd 5 :: Print line :: map Print rest, os') /\
     (forall e, r = Raised e -> caught e = true)) \/
  (exists e,
     r = Raised e /\ caught e = false /\
     probe subprocess_run results name cmd os = (Raise e, [Run cmd 5], os')).
Proof.
  intros r os'. subst r os'. rewrite probe_cases.
  destruct (fst (subprocess_run cmd 5 os)) as [p|e]; cbn zeta.
  - left. destruct (returncode p =? 0)%Z.
    + exists true, ("✓ " ++ name ++ " is installed")%string,
        [("  " ++ first_line (stdout p))%string].
      split; [reflexivity | discriminate].
    + exists false, (failure_message name NonZeroExit), [].
      split; [reflexivity | discriminate].
  - destruct (caught e) eqn:E.
    + left. exists false, ("✗ " ++ name ++ " not installed")%string, [].
      split; [reflexivity|]. intros e' [= <-]. exact E.
    + right. exists e. repeat split. exact E.
Qed.

(** The only exceptions that leave a probe are the ones [subprocess.run]
    raised and the [except] clause does not name; then nothing is printed
    for the tool.  A process that completed never makes the probe raise,
    whatever it wrote: taking the first piece of the split output cannot
    fail. *)
Theorem probe_raises_iff_uncaught
    (results : Dict.t) (name : string) (cmd : list string) (os : OS) (e : exn) :
  (value (probe subprocess_run results name cmd os) = Raise e <->
   fst (subprocess_run cmd 5 os) = Raised e /\ caught e = false) /\
  (value (probe subprocess_run results name cmd os) = Raise e ->
   trace (probe subprocess_run results name cmd os) = [Run cmd 5]) /\
  (forall p, fst (subprocess_run cmd 5 os) = Completed p ->
   exists d, value (probe subprocess_run results name cmd os) = Ok d).
Proof.
  destruct (probe_returns_or_raises results name cmd os)
    as [[v [line [rest [Hp Hc]]]] | [e' [Hr [Hc Hp]]]];
    rewrite Hp; unfold value, trace; simpl.
  - split; [split|split].
    + discriminate.
    + intros [Hr Hn]. apply Hc in Hr. congruence.
    + discriminate.
    + intros p _. now eexists.
  - split; [split|split].
    + intros [= <-]. now split.
    + intros [Hr' _]. congruence.
    + reflexivity.
    + intros p Hp'. congruence.
Qed.

(** The check raises exactly when one of its two spawns raised an exception
    outside the [except] clause: Docker's, or FFmpeg's after a probe of
    Docker that returned. *)
Theorem check_raises_iff_spawn_uncaught (os : OS) (e : exn) :
  let r1 := fst (subprocess_run ["docker"; "--version"]%string 5 os) in
  let os1 := snd (subprocess_run ["docker"; "--version"]%string 5 os) in
  let r2 := fst (subprocess_run ["ffmpeg"; "-version"]%string 5 os1) in
  value (check_prerequisites subprocess_run os) = Raise e <->
  (r1 = Raised e /\ caught e = false) \/
  ((forall e', r1 = Raised e' -> caught e' = true) /\
   r2 = Raised e /\ caught e = false).
Proof.
  intros r1 os1 r2. subst r1 r2.
  rewrite check_prerequisites_cases. unfold tools. rewrite for_tools_cons.
  destruct (probe_returns_or_raises Dict.empty "Docker"
              ["docker"; "--version"]%string os)
    as [[v1 [l1 [t1 [Hp1 Hc1]]]] | [e1 [Hr1 [Hc1 Hp1]]]]; rewrite Hp1.
  - fold os1. rewrite for_tools_cons.
    destruct (probe_returns_or_raises (Dict.set Dict.empty "Docker" v1)
                "FFmpeg" ["ffmpeg"; "-version"]%string os1)
      as [[v2 [l2 [t2 [Hp2 Hc2]]]] | [e2 [Hr2 [Hc2 Hp2]]]]; rewrite Hp2;
      unfold value; simpl.
    + split; [discriminate|]. intros [[Hr Hn] | [_ [Hr Hn]]].
      * apply Hc1 in Hr. congruence.
      * apply Hc2 in Hr. congruence.
    + split.
      * intros [= <-]. right. now repeat split.
      * intros [[Hr Hn] | [_ [Hr Hn]]].
        -- apply Hc1 in Hr. congruence.
        -- congruence.
  - unfold value; simpl. split.
    + intros [= <-]. left. now split.
    + intros [[Hr Hn] | [Hall _]].
      * congruence.
      * apply Hall in Hr1. congruence.
Qed.

End UncaughtExceptions.

(** ** What the run spawns *)

Section SpawnProperties.

Variable OS : Type.
Variable subprocess_run : list string -> Z -> OS -> run_result * OS.
Variable texts : static_text.

Lemma in_run_app (t1 t2 : list event) (cmd : list string) (t : Z) :
  In (Run cmd t) (t1 ++ t2) <-> In (Run cmd t) t1 \/ In (Run cmd t) t2.
Proof. apply in_app_iff. Qed.

Lemma in_run_prints (lines : list string) (cmd : list string) (t : Z) :
  ~ In (Run cmd t) (map Print lines).
Proof.
  induction lines as [|s lines IH]; simpl; [tauto|].
  intros [H|H]; [discriminate | contradiction].
Qed.

(** The loop spawns the commands of its list in order, each at most once
    and each with the timeout 5, and stops at the first probe that raises:
    what it has spawned is a prefix of the list, the whole list when it
    returns. *)
Lemma for_tools_spawns_prefix (l : list (string * list string)) :
  forall results os,
  (exists rest,
     map snd l = spawned (trace (for_tools subprocess_run l results os)) ++ rest /\
     (forall d, value (for_tools subprocess_run l results os) = Ok d -> rest = [])) /\
  (forall cmd t, In (Run cmd t) (trace (for_tools subprocess_run l results os)) ->
     t = 5%Z /\ In cmd (map snd l)).
Proof.
  induction l as [|[name cmd] l IH]; intros results os.
  - simpl. split; [|tauto]. exists []. split; [reflexivity | auto].
  - rewrite for_tools_cons.
    destruct (probe_returns_or_raises OS subprocess_run results name cmd os)
      as [[v [line [rest [Hp _]]]] | [e [_ [_ Hp]]]]; rewrite Hp.
    + destruct (IH (Dict.set results name v) (snd (subprocess_run cmd 5 os)))
        as [[tl [Htl Hok]] Hin].
      unfold value, trace, host in *; cbn [fst snd]. split.
      * exists tl. split; [|exact Hok].
        cbn [app spawned map snd]. rewrite spawned_app, spawned_prints.
        simpl. now rewrite <- Htl.
      * intros c t. cbn [app In]. intros [H|[H|H]].
        -- injection H as <- <-. split; [reflexivity | now left].
        -- discriminate.
        -- apply in_run_app in H as [H|H]; [now apply in_run_prints in H|].
           destruct (Hin c t H) as [Ht Hc]. split; [exact Ht | now right].
    + unfold value, trace; cbn [fst snd]. split.
      * exists (map snd l). split; [reflexivity | discriminate].
      * intros c t [H|[]]. injection H as <- <-.
        split; [reflexivity | now left].
Qed.

Lemma spawned_print_only (t : list event) :
  (forall cmd z, ~ In (Run cmd z) t) -> spawned t = [].
Proof.
  induction t as [|[s|c z] t IH]; intros H; simpl.
  - reflexivity.
  - apply IH. intros cmd z' Hin. apply (H cmd z'). now right.
  - exfalso. apply (H c z). now left.
Qed.

Lemma documentation_prints_only (ok : bool) (cmd : list string) (z : Z) :
  ~ In (Run cmd z)
      (demo_events texts ++ section_events "Quick Start Summary" ++
       [Print summary] ++ (if ok then [] else warning_block)).
Proof.
  unfold demo_events, section_events, warning_block.
  destruct ok; cbn [app In]; intuition discriminate.
Qed.

(** Whatever the host does, [main] spawns nothing but the two version
    commands: Docker's first, then FFmpeg's unless the probe of Docker
    raised, each once and with the timeout 5.  None of the commands the
    demonstrations print is run. *)
Theorem main_spawns_only_version_commands (os : OS) :
  (exists rest,
     [["docker"; "--version"]; ["ffmpeg"; "-version"]]%string =
       spawned (trace (main subprocess_run texts os)) ++ rest /\
     rest <> [["docker"; "--version"]; ["ffmpeg"; "-version"]]%string /\
     (forall code, value (main subprocess_run texts os) = Ok code -> rest = [])) /\
  (forall cmd t, In (Run cmd t) (trace (main subprocess_run texts os)) ->
     t = 5%Z /\
     (cmd = ["docker"; "--version"]%string \/ cmd = ["ffmpeg"; "-version"]%string)).
Proof.
  destruct (for_tools_spawns_prefix tools Dict.empty os) as [[rest [Hr Hok]] Hin].
  assert (Hne : rest <> map snd tools).
  { intros ->. revert Hr. unfold tools. rewrite for_tools_cons.
    destruct (probe_returns_or_raises OS subprocess_run Dict.empty "Docker"
                ["docker"; "--version"]%string os)
      as [[v [line [tl [Hp _]]]] | [e [_ [_ Hp]]]]; rewrite Hp;
      unfold trace; simpl; intros H;
      apply (f_equal (@length _)) in H; simpl in H;
      try rewrite length_app in H; simpl in H; lia. }
  rewrite main_cases, check_prerequisites_cases.
  destruct (for_tools subprocess_run tools Dict.empty os) as [[[d|e] t] os'];
    unfold value, trace in *; cbn [fst snd] in *.
  - split.
    + exists rest. split; [|split; [exact Hne|]].
      * rewrite (spawned_app banner_events),
          (spawned_app (section_events _ ++ t)),
          (spawned_app (section_events _) t).
        rewrite (spawned_print_only (demo_events texts ++ _)).
        -- simpl. rewrite app_nil_r. exact Hr.
        -- intros c z. apply (documentation_prints_only (py_all (Dict.values d))).
      * intros _ _. now apply (Hok d).
    + intros c z H.
      apply in_run_app in H as [H|H];
        [|apply in_run_app in H as [H|H];
          [apply in_run_app in H as [H|H]|]].
      * unfold banner_events in H. simpl in H. intuition discriminate.
      * unfold section_events in H. simpl in H. intuition discriminate.
      * destruct (Hin c z H) as [Hz Hc]. split; [exact Hz|].
        simpl in Hc. intuition.
      * exfalso. revert H.
        apply (documentation_prints_only (py_all (Dict.values d))).
  - split.
    + exists rest. split; [|split; [exact Hne | discriminate]].
      rewrite !spawned_app. simpl. exact Hr.
    + intros c z H.
      apply in_run_app in H as [H|H]; [|apply in_run_app in H as [H|H]].
      * unfold banner_events in H. simpl in H. intuition discriminate.
      * unfold section_events in H. simpl in H. intuition discriminate.
      * destruct (Hin c z H) as [Hz Hc]. split; [exact Hz|].
        simpl in Hc. intuition.
Qed.

End SpawnProperties.

(** ** The run as a whole *)

Section RunProperties.

Variable OS : Type.
Variable subprocess_run : list string -> Z -> OS -> run_result * OS.
Variable texts : static_text.

(** When the check raises, [main] stops there: it has printed the banner
    and what the check printed, none of the demonstrations, no summary and
    no warning, and the interpreter exits with status 1.  The status is 1
    in this case only, and 0 otherwise. *)
Theorem exit_status_one_iff_check_raises (os : OS) :
  (forall e, value (check_prerequisites subprocess_run os) = Raise e ->
     main subprocess_run texts os =
       (Raise e,
        banner_events ++ trace (check_prerequisites subprocess_run os),
        host (check_prerequisites subprocess_run os))) /\
  (exit_status subprocess_run texts os = 1%Z <->
   exists e, value (check_prerequisites subprocess_run os) = Raise e) /\
  (exit_status subprocess_run texts os = 0%Z <->
   exists ok, value (check_prerequisites subprocess_run os) = Ok ok).
Proof.
  unfold exit_status. rewrite main_cases.
  destruct (check_prerequisites subprocess_run os) as [[[ok|e] tc] os1];
    unfold value, trace, host; cbn [fst snd].
  - split; [discriminate|]. split; split.
    + discriminate.
    + intros [e H]. discriminate.
    + intros _. now exists ok.
    + reflexivity.
  - split; [now intros e' [= <-]|]. split; split.
    + intros _. now exists e.
    + reflexivity.
    + discriminate.
    + intros [ok H]. discriminate.
Qed.

(** When the check returns, every demonstration and the summary follow in
    their fixed order whatever the check found, they are the same on every
    host and leave it as the check left it; the run then ends there or
    with the warning block. *)
Theorem documentation_follows_any_check (os : OS) (ok : bool) :
  value (check_prerequisites subprocess_run os) = Ok ok ->
  exists tail,
    trace (main subprocess_run texts os) =
      banner_events ++ trace (check_prerequisites subprocess_run os) ++
      demo_events texts ++ section_events "Quick Start Summary" ++
      [Print summary] ++ tail /\
    (tail = [] \/ tail = warning_block) /\
    host (main subprocess_run texts os) =
      host (check_prerequisites subprocess_run os).
Proof.
  rewrite main_cases.
  destruct (check_prerequisites subprocess_run os) as [[[ok'|e] tc] os1];
    unfold value, trace, host; cbn [fst snd]; [|discriminate].
  intros _. exists (if ok' then [] else warning_block).
  split; [reflexivity|]. split; [|reflexivity].
  destruct ok'; [now left | now right].
Qed.

(** On a host within the design's outcomes the finished report is the
    entry of Docker followed by the entry of FFmpeg, each true exactly when
    the tool's own command exited with zero; FFmpeg's command runs on the
    host as Docker's command left it. *)
Theorem report_entries_reflect_tools (os : OS) :
  host_classified subprocess_run ->
  let r1 := fst (subprocess_run ["docker"; "--version"]%string 5 os) in
  let os1 := snd (subprocess_run ["docker"; "--version"]%string 5 os) in
  let r2 := fst (subprocess_run ["ffmpeg"; "-version"]%string 5 os1) in
  exists v1 v2 t,
    for_tools subprocess_run tools Dict.empty os =
      (Ok [("Docker"%string, v1); ("FFmpeg"%string, v2)], t,
       snd (subprocess_run ["ffmpeg"; "-version"]%string 5 os1)) /\
    (v1 = true <-> exits_zero r1) /\
    (v2 = true <-> exits_zero r2).
Proof.
  intros Hh r1 os1 r2. subst r1 r2. unfold tools.
  destruct (probe_returns OS subprocess_run Dict.empty "Docker"
              ["docker"; "--version"]%string os Hh)
    as [v1 [line1 [rest1 [Hp1 [Hv1 _]]]]].
  fold os1 in Hp1.
  destruct (probe_returns OS subprocess_run (Dict.set Dict.empty "Docker" v1)
              "FFmpeg" ["ffmpeg"; "-version"]%string os1 Hh)
    as [v2 [line2 [rest2 [Hp2 [Hv2 _]]]]].
  rewrite for_tools_cons, Hp1, for_tools_cons, Hp2.
  unfold value, trace, host; simpl.
  exists v1, v2. eexists. split; [reflexivity|]. split; [exact Hv1 | exact Hv2].
Qed.

(** A probe looks at nothing of a completed process but whether its status
    is zero and, if it is, the first line of its standard output: two
    failed runs give the same report whatever their statuses and outputs,
    and two successful runs with the same first line give the same report
    whatever follows that line and whatever went to standard error. *)
Theorem probe_reads_status_and_first_line
    (results : Dict.t) (name : string) (cmd : list string)
    (os os' : OS) (p p' : CompletedProcess) :
  fst (subprocess_run cmd 5 os) = Completed p ->
  fst (subprocess_run cmd 5 os') = Completed p' ->
  (returncode p <> 0%Z /\ returncode p' <> 0%Z) \/
  (returncode p = 0%Z /\ returncode p' = 0%Z /\
   first_line (stdout p) = first_line (stdout p')) ->
  value (probe subprocess_run results name cmd os) =
    value (probe subprocess_run results name cmd os') /\
  trace (probe subprocess_run results name cmd os) =
    trace (probe subprocess_run results name cmd os').
Proof.
  intros Hr Hr' Hcase. rewrite !probe_cases, Hr, Hr'. cbn zeta.
  destruct Hcase as [[Hn Hn'] | [Hz [Hz' Hl]]].
  - apply Z.eqb_neq in Hn, Hn'. rewrite Hn, Hn'. split; reflexivity.
  - apply Z.eqb_eq in Hz, Hz'. rewrite Hz, Hz'.
    unfold value, trace; simpl. rewrite Hl. split; reflexivity.
Qed.

End RunProperties.

(** ** The further properties on concrete hosts *)

Lemma center_pads_both_sides_witness :
  PyStr.center "NarratoAI" 4 "="%char = "NarratoAI"%string.
Proof.
  apply (proj1 (center_pads_both_sides "NarratoAI" 4 "="%char)).
  simpl. lia.
Defined.

Lemma probe_raises_iff_uncaught_witness :
  value (probe Host.scripted Dict.empty "Docker" ["docker"; "--version"]%string
           [Raised (OtherException "PermissionError")])
    = Raise (OtherException "PermissionError").
Proof.
  apply (proj1 (probe_raises_iff_uncaught _ Host.scripted Dict.empty "Docker"
                  ["docker"; "--version"]%string
                  [Raised (OtherException "PermissionError")]
                  (OtherException "PermissionError"))).
  split; reflexivity.
Defined.

Lemma check_raises_iff_spawn_uncaught_witness :
  value (check_prerequisites Host.scripted
           [Raised TimeoutExpired; Raised (OtherException "PermissionError")])
    = Raise (OtherException "PermissionError").
Proof.
  apply (check_raises_iff_spawn_uncaught _ Host.scripted
           [Raised TimeoutExpired; Raised (OtherException "PermissionError")]
           (OtherException "PermissionError")).
  right. split; [|split; reflexivity].
  simpl. intros e' [= <-]. reflexivity.
Defined.

Lemma main_spawns_only_version_commands_witness :
  exists rest,
    [["docker"; "--version"]; ["ffmpeg"; "-version"]]%string =
      spawned (trace (main Host.scripted Host.no_text
                        [Raised (OtherException "PermissionError")])) ++ rest /\
    rest <> [["docker"; "--version"]; ["ffmpeg"; "-version"]]%string /\
    (forall code,
       value (main Host.scripted Host.no_text
                [Raised (OtherException "PermissionError")]) = Ok code ->
       rest = []).
Proof.
  apply (proj1 (main_spawns_only_version_commands _ Host.scripted Host.no_text
                  [Raised (OtherException "PermissionError")])).
Defined.

Lemma exit_status_one_iff_check_raises_witness :
  exit_status Host.scripted Host.no_text
    [Raised (OtherException "PermissionError")] = 1%Z.
Proof.
  apply (proj1 (proj2 (exit_status_one_iff_check_raises _ Host.scripted
                         Host.no_text
                         [Raised (OtherException "PermissionError")]))).
  eexists. reflexivity.
Defined.

Lemma documentation_follows_any_check_witness :
  exists tail,
    trace (main Host.answering Host.no_text Host.docker_only) =
      banner_events ++
      trace (check_prerequisites Host.answering Host.docker_only) ++
      demo_events Host.no_text ++ section_events "Quick Start Summary" ++
      [Print summary] ++ tail /\
    (tail = [] \/ tail = warning_block) /\
    host (main Host.answering Host.no_text Host.docker_only) =
      host (check_prerequisites Host.answering Host.docker_only).
Proof.
  apply (documentation_follows_any_check _ Host.answering Host.no_text
           Host.docker_only false).
  reflexivity.
Defined.

Lemma report_entries_reflect_tools_witness :
  exists v1 v2 t,
    for_tools Host.answering tools Dict.empty Host.docker_only =
      (Ok [("Docker"%string, v1); ("FFmpeg"%string, v2)], t, []) /\
    (v1 = true <-> exits_zero (Host.answer_result (Host.Exit 0 "Docker version 24.0.5"))) /\
    (v2 = true <-> exits_zero (Host.answer_result (Host.Exit 1 EmptyString))).
Proof.
  apply (report_entries_reflect_tools _ Host.answering Host.docker_only
           answering_classified).
Defined.

Lemma probe_reads_status_and_first_line_witness :
  value (probe Host.answering Dict.empty "FFmpeg" ["ffmpeg"; "-version"]%string
           [Host.Exit 1 "usage"]) =
  value (probe Host.answering Dict.empty "FFmpeg" ["ffmpeg"; "-version"]%string
           [Host.Exit 127 EmptyString]) /\
  trace (probe Host.answering Dict.empty "FFmpeg" ["ffmpeg"; "-version"]%string
           [Host.Exit 1 "usage"]) =
  trace (probe Host.answering Dict.empty "FFmpeg" ["ffmpeg"; "-version"]%string
           [Host.Exit 127 EmptyString]).
Proof.
  apply (probe_reads_status_and_first_line _ Host.answering Dict.empty "FFmpeg"
           ["ffmpeg"; "-version"]%string
           [Host.Exit 1 "usage"] [Host.Exit 127 EmptyString]
           (mkCompleted 1 "usage" EmptyString)
           (mkCompleted 127 EmptyString EmptyString)).
  - reflexivity.
  - reflexivity.
  - left. split; discriminate.
Defined.
